(** * agent.py: the LiveKit voice-agent entrypoint, embedded and verified

    The script has two layers.  At module level (lines 24-35) it loads the
    environment file and reads [agent-prompt.md] into the global
    [SYSTEM_PROMPT].  The coroutine [entrypoint] (lines 38-77) is then
    registered with the worker (lines 80-86) and run once per job.

    The coroutine is embedded statement by statement as a small-step machine:
    a program point names the source line about to run and carries the locals
    that are bound there, and every call into the outside world (the
    environment, stdout, the framework constructors, the two awaited calls)
    leaves an event in a trace.  What the outside world answers is gathered
    in a [World]: the value of the variable, the room, and for each framework
    call that can fail (the constructors of lines 48 and 67 and the two
    awaited calls) whether it returns or raises. *)

From stdpp Require Import base strings list gmap relations.
From Stdlib Require Import DecimalString DecimalNat.

Open Scope string_scope.
Open Scope list_scope.
Open Scope nat_scope.
Open Scope stdpp_scope.

(** ** Values *)

(** [os.getenv] returns [str | None]. *)
Inductive PyOptStr :=
| PyNone
| PyStr (s : string).

(** Truth value of [if v:] for [v : str | None]: [None] and the empty
    string are false, every other string is true. *)
Definition truthy (v : PyOptStr) : bool :=
  match v with
  | PyNone => false
  | PyStr EmptyString => false
  | PyStr (String _ _) => true
  end.

(** [str(n)] for a non-negative [int], as used by the f-string on line 77. *)
Definition str_of_int (n : nat) : string :=
  NilEmpty.string_of_uint (Nat.to_uint n).

(** ** The framework's objects, as far as the script touches them *)

(** [livekit.agents.AutoSubscribe]. *)
Inductive AutoSubscribe :=
| SUBSCRIBE_ALL
| SUBSCRIBE_NONE
| AUDIO_ONLY
| VIDEO_ONLY.

(** [MCPServerHTTP(url=..., timeout=...)]: the two keyword arguments the
    script passes. *)
Record MCPServerHTTP := {
  url : string;
  timeout : nat;
}.

(** [voice.Agent(instructions=..., mcp_servers=...)].  In Python the agent
    holds a reference to the very list the handler built; the handler never
    mutates that list after line 52, so the agent's view and the local
    variable always agree and the list is carried by value. *)
Record Agent := {
  instructions : string;
  mcp_servers : list MCPServerHTTP;
}.

(** [voice.AgentSession(stt=..., llm=..., tts=...)]. *)
Record AgentSession := {
  stt : string;
  llm : string;
  tts : string;
}.

(** [ctx.room], of which only [.name] is read. *)
Record Room := {
  name : string;
}.

(** Exceptions: the three ways [Path.read_text] fails, the [ValueError] a
    framework constructor raises on arguments or settings it does not
    accept, and whatever the framework raises out of an awaited call. *)
Inductive Exn :=
| FileNotFoundError
| PermissionError
| UnicodeDecodeError
| ValueError (msg : string)
| FrameworkError (msg : string).

#[global] Instance AutoSubscribe_eq_dec : EqDecision AutoSubscribe.
Proof. solve_decision. Defined.

#[global] Instance MCPServerHTTP_eq_dec : EqDecision MCPServerHTTP.
Proof. solve_decision. Defined.

#[global] Instance Agent_eq_dec : EqDecision Agent.
Proof. solve_decision. Defined.

#[global] Instance AgentSession_eq_dec : EqDecision AgentSession.
Proof. solve_decision. Defined.

#[global] Instance Room_eq_dec : EqDecision Room.
Proof. solve_decision. Defined.

#[global] Instance Exn_eq_dec : EqDecision Exn.
Proof. solve_decision. Defined.

#[global] Instance PyOptStr_eq_dec : EqDecision PyOptStr.
Proof. solve_decision. Defined.

(** ** The outside world of one job *)

(** A path is the list of its components as [Path.parts] gives them (no
    empty component, no ["."], no separator inside a component);
    [Path.parent] drops the last one and [p / name] adds one. *)
Definition parent (p : list string) : list string := removelast p.

Definition joinpath (p : list string) (child : string) : list string :=
  p ++ [child].

(** A file has raw bytes and may or may not be readable by the process. *)
Record File := {
  readable : bool;
  content : string;
}.

(** Everything one run of the handler can observe: the process environment
    and the file system as they are while the job runs, the room of the job
    context, and how the framework answers, in this very situation, the
    calls that can fail ([None] is a normal return, [Some e] raises [e]).

    [MCPServerHTTP(url=..., timeout=...)] parses the URL and raises on one
    it cannot parse; [voice.AgentSession(stt=..., llm=..., tts=...)]
    resolves the three selectors and raises when that needs settings the
    process does not have (credentials in the environment, for one).  The
    answers are part of the world, not computed from [os_environ]: a
    statement about two worlds says which answers it takes to agree.

    [voice.Agent(...)] only stores its two arguments, and [print] writes to
    a standard output that accepts the text: neither has a failing case
    here. *)
Record World := {
  os_environ : gmap string string;
  files : gmap (list string) File;
  ctx_room : Room;
  new_MCPServerHTTP : string → nat → option Exn;
  ctx_connect : AutoSubscribe → option Exn;
  new_AgentSession : string → string → string → option Exn;
  session_start : AgentSession → Agent → Room → option Exn;
}.

(** [os.getenv(key)]: the value, or [None] when the variable is not set. *)
Definition os_getenv (w : World) (key : string) : PyOptStr :=
  match os_environ w !! key with
  | Some v => PyStr v
  | None => PyNone
  end.

(** ** Events *)

(** What the handler does to the outside world, in the order it does it. *)
Inductive Event :=
| GetEnv (key : string) (v : PyOptStr)
| Print (line : string)
| NewMCPServerHTTP (server : MCPServerHTTP)
| CallConnect (auto_subscribe : AutoSubscribe)
| RetConnect
| NewAgent (agent : Agent)
| NewAgentSession (session : AgentSession)
| CallStart (session : AgentSession) (agent : Agent) (room : Room)
| RetStart.

#[global] Instance Event_eq_dec : EqDecision Event.
Proof. solve_decision. Defined.

(** The module's globals once it is imported. *)
Record Globals := {
  SYSTEM_PROMPT : string;
}.

(** ** The handler (lines 38-77) as a machine *)

(** A program point is the source line about to run, with the locals that
    are bound there.  Inside the [if] of line 46 the variable
    [mcp_server_url] is known to be a [str], and is carried as one.  The two
    [await]s are split into the call and the suspension that follows it.
    Nothing in the handler catches an exception, so a call that raises ends
    the run in [Raised]. *)
Inductive Point :=
| L42
| L45 (mcp_server_url : PyOptStr)
| L46 (mcp_server_url : PyOptStr) (mcp_servers : list MCPServerHTTP)
| L47 (mcp_server_url : string) (mcp_servers : list MCPServerHTTP)
| L48 (mcp_server_url : string) (mcp_servers : list MCPServerHTTP)
| L52 (mcp_servers : list MCPServerHTTP) (server : MCPServerHTTP)
| L54 (mcp_servers : list MCPServerHTTP)
| L57 (mcp_servers : list MCPServerHTTP)
| L57_await (mcp_servers : list MCPServerHTTP)
| L60 (mcp_servers : list MCPServerHTTP)
| L67 (mcp_servers : list MCPServerHTTP) (agent : Agent)
| L74 (mcp_servers : list MCPServerHTTP) (agent : Agent)
      (session : AgentSession)
| L74_await (mcp_servers : list MCPServerHTTP) (agent : Agent)
      (session : AgentSession)
| L76 (mcp_servers : list MCPServerHTTP) (agent : Agent)
      (session : AgentSession)
| L77 (mcp_servers : list MCPServerHTTP) (agent : Agent)
      (session : AgentSession)
| Returned
| Raised (e : Exn).

(** A configuration: where the handler is, and what it has done so far. *)
Record Config := {
  pc : Point;
  trace : list Event;
}.

Definition initial : Config := {| pc := L42; trace := [] |}.

(** The four lines the handler can print (lines 47, 54, 76 and 77). *)
Definition line_configured (mcp_server_url : string) : string :=
  "✓ MCP Server configured: " +:+ mcp_server_url.

Definition line_no_url : string :=
  "⚠ No MCP_SERVER_URL found in environment".

Definition line_started (room_name : string) : string :=
  "✓ Agent started successfully in room: " +:+ room_name.

Definition line_count (n : nat) : string :=
  "✓ MCP servers: " +:+ str_of_int n +:+ " configured".

(** One statement.  [None] means the handler is over: it returned or an
    exception left it. *)
Definition step (g : Globals) (w : World) (c : Config) : option Config :=
  let goto p evs := Some {| pc := p; trace := trace c ++ evs |} in
  match pc c with
  | L42 =>
      let mcp_server_url := os_getenv w "MCP_SERVER_URL" in
      goto (L45 mcp_server_url) [GetEnv "MCP_SERVER_URL" mcp_server_url]
  | L45 mcp_server_url =>
      goto (L46 mcp_server_url []) []
  | L46 mcp_server_url mcp_servers =>
      match mcp_server_url with
      | PyStr s =>
          if truthy mcp_server_url
          then goto (L47 s mcp_servers) []
          else goto (L54 mcp_servers) []
      | PyNone => goto (L54 mcp_servers) []
      end
  | L47 mcp_server_url mcp_servers =>
      goto (L48 mcp_server_url mcp_servers)
           [Print (line_configured mcp_server_url)]
  | L48 mcp_server_url mcp_servers =>
      match new_MCPServerHTTP w mcp_server_url 10 with
      | None =>
          let server := {| url := mcp_server_url; timeout := 10 |} in
          goto (L52 mcp_servers server) [NewMCPServerHTTP server]
      | Some e => goto (Raised e) []
      end
  | L52 mcp_servers server =>
      goto (L57 (mcp_servers ++ [server])) []
  | L54 mcp_servers =>
      goto (L57 mcp_servers) [Print line_no_url]
  | L57 mcp_servers =>
      goto (L57_await mcp_servers) [CallConnect AUDIO_ONLY]
  | L57_await mcp_servers =>
      match ctx_connect w AUDIO_ONLY with
      | None => goto (L60 mcp_servers) [RetConnect]
      | Some e => goto (Raised e) []
      end
  | L60 mcp_servers =>
      let agent := {| instructions := SYSTEM_PROMPT g;
                      mcp_servers := mcp_servers |} in
      goto (L67 mcp_servers agent) [NewAgent agent]
  | L67 mcp_servers agent =>
      match new_AgentSession w
              "assemblyai/universal-streaming:en"
              "openai/gpt-4.1-mini"
              "cartesia/sonic-2:9626c31c-bec5-4cca-baa8-f8ba9e84c8bc" with
      | None =>
          let session :=
            {| stt := "assemblyai/universal-streaming:en";
               llm := "openai/gpt-4.1-mini";
               tts :=
                 "cartesia/sonic-2:9626c31c-bec5-4cca-baa8-f8ba9e84c8bc" |} in
          goto (L74 mcp_servers agent session) [NewAgentSession session]
      | Some e => goto (Raised e) []
      end
  | L74 mcp_servers agent session =>
      goto (L74_await mcp_servers agent session)
           [CallStart session agent (ctx_room w)]
  | L74_await mcp_servers agent session =>
      match session_start w session agent (ctx_room w) with
      | None => goto (L76 mcp_servers agent session) [RetStart]
      | Some e => goto (Raised e) []
      end
  | L76 mcp_servers agent session =>
      goto (L77 mcp_servers agent session)
           [Print (line_started (name (ctx_room w)))]
  | L77 mcp_servers agent session =>
      goto Returned [Print (line_count (length mcp_servers))]
  | Returned => None
  | Raised _ => None
  end.

(** The step relation and the configurations a run passes through. *)
Definition steps_to (g : Globals) (w : World) (c c' : Config) : Prop :=
  step g w c = Some c'.

Definition reachable (g : Globals) (w : World) (c : Config) : Prop :=
  rtc (steps_to g w) initial c.

(** Run to the end, at most [fuel] statements. *)
Fixpoint run (fuel : nat) (g : Globals) (w : World) (c : Config) : Config :=
  match fuel with
  | 0 => c
  | S fuel' =>
      match step g w c with
      | Some c' => run fuel' g w c'
      | None => c
      end
  end.

(** The longest path through the handler has fourteen statements. *)
Definition entrypoint (g : Globals) (w : World) : Config :=
  run 14 g w initial.

(** How a finished run ended. *)
Inductive Outcome :=
| Normal
| Exception (e : Exn)
| Running.

Definition outcome (c : Config) : Outcome :=
  match pc c with
  | Returned => Normal
  | Raised e => Exception e
  | _ => Running
  end.

(** ** Module level (lines 24-35) *)

(** [load_dotenv()] on line 25 can only add variables to [os.environ], and
    does so before any job exists: what it leaves is part of the
    [os_environ] a job finds.  The statement that matters here is line 35,
    which reads the prompt file. *)

Section module_level.

(** [__file__], the script's own path, and the codec [read_text()] uses
    when it is called without [encoding=] (the interpreter's default text
    encoding); decoding fails on bytes the codec does not accept. *)
Variable __file__ : list string.
Variable default_decode : string → option string.

(** [Path.read_text()]: the whole file, decoded. *)
Definition read_text (fs : gmap (list string) File) (p : list string)
  : Exn + string :=
  match fs !! p with
  | None => inl FileNotFoundError
  | Some f =>
      if readable f then
        match default_decode (content f) with
        | Some text => inr text
        | None => inl UnicodeDecodeError
        end
      else inl PermissionError
  end.

(** Line 30: [Path(__file__).parent / "agent-prompt.md"]. *)
Definition prompt_path : list string :=
  joinpath (parent __file__) "agent-prompt.md".

(** Lines 28-31. *)
Definition load_system_prompt (fs : gmap (list string) File) : Exn + string :=
  read_text fs prompt_path.

(** Line 35, the only module-level statement that can bind a global:
    [SYSTEM_PROMPT = load_system_prompt()].  An exception here aborts the
    import, so nothing below it in the file ever runs. *)
Definition import_module (fs : gmap (list string) File) : Exn + Globals :=
  match load_system_prompt fs with
  | inl e => inl e
  | inr text => inr {| SYSTEM_PROMPT := text |}
  end.

(** Lines 80-86: the worker runs the registered handler once per job, each
    job in the world it finds when it arrives.  The handler assigns no
    global, so every job sees the globals the import left. *)
Definition worker (fs : gmap (list string) File) (jobs : list World)
  : Exn + list Config :=
  match import_module fs with
  | inl e => inl e
  | inr g => inr (map (entrypoint g) jobs)
  end.

End module_level.

(** Every event of a whole process, job after job; none if the import
    failed. *)
Definition process_trace (r : Exn + list Config) : list Event :=
  match r with
  | inl _ => []
  | inr cs => concat (map trace cs)
  end.

(** ** Reading a trace *)

(** The objects the handler built and the calls it made, in order. *)
Definition servers_built (t : list Event) : list MCPServerHTTP :=
  omap (λ ev, match ev with NewMCPServerHTTP s => Some s | _ => None end) t.

Definition agents_built (t : list Event) : list Agent :=
  omap (λ ev, match ev with NewAgent a => Some a | _ => None end) t.

Definition sessions_built (t : list Event) : list AgentSession :=
  omap (λ ev, match ev with NewAgentSession s => Some s | _ => None end) t.

Definition connect_calls (t : list Event) : list AutoSubscribe :=
  omap (λ ev, match ev with CallConnect m => Some m | _ => None end) t.

Definition start_calls (t : list Event)
  : list (AgentSession * Agent * Room) :=
  omap (λ ev, match ev with
              | CallStart s a r => Some (s, a, r)
              | _ => None
              end) t.

Definition printed (t : list Event) : list string :=
  omap (λ ev, match ev with Print l => Some l | _ => None end) t.

(** What the outside world sees of a run: every event except the handler's
    own reads of the environment. *)
Definition effects (t : list Event) : list Event :=
  omap (λ ev, match ev with GetEnv _ _ => None | _ => Some ev end) t.

(** The local variable [mcp_servers], where it is bound. *)
Definition mcp_servers_at (p : Point) : option (list MCPServerHTTP) :=
  match p with
  | L42 | L45 _ | Returned | Raised _ => None
  | L46 _ l | L47 _ l | L48 _ l | L52 l _ | L54 l | L57 l | L57_await l
  | L60 l | L67 l _ | L74 l _ _ | L74_await l _ _ | L76 l _ _ | L77 l _ _ =>
      Some l
  end.

(** The two lines printed after the session has started (lines 76-77). *)
Definition is_confirmation (w : World) (l : string) : Prop :=
  l = line_started (name (ctx_room w)) ∨ ∃ n, l = line_count n.

(** Statements left to run from a point, at most. *)
Definition remaining (p : Point) : nat :=
  match p with
  | L42 => 14
  | L45 _ => 13
  | L46 _ _ => 12
  | L47 _ _ => 11
  | L48 _ _ => 10
  | L52 _ _ => 9
  | L54 _ => 9
  | L57 _ => 8
  | L57_await _ => 7
  | L60 _ => 6
  | L67 _ _ => 5
  | L74 _ _ _ => 4
  | L74_await _ _ _ => 3
  | L76 _ _ _ => 2
  | L77 _ _ _ => 1
  | Returned => 0
  | Raised _ => 0
  end.

(** ** Invariant of the tool-server list *)

(** What holds of [mcp_servers] at each program point: empty until the
    [append] of line 52 has run, at most one element from then on, and the
    list of every agent built so far is that same list. *)
Definition servers_inv (c : Config) : Prop :=
  match pc c with
  | L46 _ l | L47 _ l | L48 _ l | L52 l _ | L54 l => l = []
  | L57 l | L57_await l | L60 l => length l ≤ 1
  | L67 l a | L74 l a _ | L74_await l a _ | L76 l a _ | L77 l a _ =>
      length l ≤ 1 ∧ mcp_servers a = l
  | L42 | L45 _ | Returned | Raised _ => True
  end ∧
  ∀ a, NewAgent a ∈ trace c → length (mcp_servers a) ≤ 1.

(** ** Comparing jobs *)


(** ** Sample hosts and jobs *)

(** The settings that let the framework resolve the three selectors. *)
Definition credentials : gmap string string :=
  {[ "LIVEKIT_URL" := "wss://example.livekit.cloud";
     "LIVEKIT_API_KEY" := "devkey";
     "LIVEKIT_API_SECRET" := "secret" ]}.

(** Two jobs to try statements on: the specification's example URL is set
    in one and the variable is missing from the other.  In both every
    framework call returns. *)
Definition job_with_url : World :=
  {| os_environ :=
       <[ "MCP_SERVER_URL" := "https://example.com/mcp" ]> credentials;
     files := ∅;
     ctx_room := {| name := "lobby" |};
     new_MCPServerHTTP := λ _ _, None;
     ctx_connect := λ _, None;
     new_AgentSession := λ _ _ _, None;
     session_start := λ _ _ _, None |}.

Definition job_without_url : World :=
  {| os_environ := credentials;
     files := ∅;
     ctx_room := {| name := "lobby" |};
     new_MCPServerHTTP := λ _ _, None;
     ctx_connect := λ _, None;
     new_AgentSession := λ _ _ _, None;
     session_start := λ _ _ _, None |}.

Definition helpful : Globals := {| SYSTEM_PROMPT := "You are helpful." |}.

(** Jobs in which one call raises: the URL does not parse (an IPv6 literal
    that is none), the credentials are missing, connect is refused, or the
    session does not start. *)
Definition job_bad_url : World :=
  {| os_environ := <[ "MCP_SERVER_URL" := "http://[x]/mcp" ]> credentials;
     files := ∅;
     ctx_room := {| name := "lobby" |};
     new_MCPServerHTTP := λ _ _, Some (ValueError "Invalid IPv6 URL");
     ctx_connect := λ _, None;
     new_AgentSession := λ _ _ _, None;
     session_start := λ _ _ _, None |}.

Definition job_no_credentials : World :=
  {| os_environ := {[ "HOME" := "/root" ]};
     files := ∅;
     ctx_room := {| name := "lobby" |};
     new_MCPServerHTTP := λ _ _, None;
     ctx_connect := λ _, None;
     new_AgentSession := λ _ _ _, Some (ValueError "api_key is required");
     session_start := λ _ _ _, None |}.

Definition job_connect_fails : World :=
  {| os_environ :=
       <[ "MCP_SERVER_URL" := "https://example.com/mcp" ]> credentials;
     files := ∅;
     ctx_room := {| name := "lobby" |};
     new_MCPServerHTTP := λ _ _, None;
     ctx_connect := λ _, Some (FrameworkError "connection refused");
     new_AgentSession := λ _ _ _, None;
     session_start := λ _ _ _, None |}.

Definition job_start_fails : World :=
  {| os_environ := credentials;
     files := ∅;
     ctx_room := {| name := "lobby" |};
     new_MCPServerHTTP := λ _ _, None;
     ctx_connect := λ _, None;
     new_AgentSession := λ _ _ _, None;
     session_start := λ _ _ _, Some (FrameworkError "no such model") |}.

(** A host where the script is [/srv/agent-python/agent.py]. *)
Definition script_path : list string := ["srv"; "agent-python"; "agent.py"].

Definition prompt_file (text : string) : gmap (list string) File :=
  {[ ["srv"; "agent-python"; "agent-prompt.md"] :=
       {| readable := true; content := text |} ]}.

(** A job that arrives after the prompt file has been rewritten, one that
    arrives in another room and with other variables beside the ones the
    framework needs, and one with the variable set to the empty string. *)
Definition job_after_edit : World :=
  {| os_environ := credentials;
     files := prompt_file "You are terse.";
     ctx_room := {| name := "lobby" |};
     new_MCPServerHTTP := λ _ _, None;
     ctx_connect := λ _, None;
     new_AgentSession := λ _ _ _, None;
     session_start := λ _ _ _, None |}.

Definition job_in_kitchen : World :=
  {| os_environ := <[ "HOME" := "/home/agent" ]> credentials;
     files := prompt_file "You are helpful.";
     ctx_room := {| name := "kitchen" |};
     new_MCPServerHTTP := λ _ _, None;
     ctx_connect := λ _, None;
     new_AgentSession := λ _ _ _, None;
     session_start := λ _ _ _, None |}.

Definition job_with_empty_url : World :=
  {| os_environ := <[ "MCP_SERVER_URL" := "" ]> credentials;
     files := ∅;
     ctx_room := {| name := "lobby" |};
     new_MCPServerHTTP := λ _ _, None;
     ctx_connect := λ _, None;
     new_AgentSession := λ _ _ _, None;
     session_start := λ _ _ _, None |}.

(** * Sanity checks of the text helpers *)

Example str_of_int_0 : str_of_int 0 = "0".
Proof. reflexivity. Qed.

Example str_of_int_1 : str_of_int 1 = "1".
Proof. reflexivity. Qed.

Example str_of_int_10 : str_of_int 10 = "10".
Proof. reflexivity. Qed.

(** * The machine: termination, determinism, reachable configurations *)

(** Unfold one statement of the handler at a known program point. *)
Ltac step_inv H :=
  unfold steps_to, step in H; simpl in H;
  repeat case_match; simplify_eq; simpl in *.

Section machine.

Variable g : Globals.
Variable w : World.

Lemma step_extends c c' :
  steps_to g w c c' → ∃ evs, trace c' = trace c ++ evs.
Proof.
  destruct c as [p t]; intros H.
  destruct p; step_inv H; eauto.
Qed.

Lemma step_decreases c c' :
  steps_to g w c c' → remaining (pc c') < remaining (pc c).
Proof.
  destruct c as [p t]; intros H.
  destruct p; step_inv H; lia.
Qed.

Lemma step_None c : step g w c = None ↔ remaining (pc c) = 0.
Proof.
  destruct c as [p t]; unfold step; simpl.
  destruct p; simpl; repeat case_match; split; intros; simplify_eq; done.
Qed.

Lemma run_S_last n c c' :
  step g w (run n g w c) = Some c' → run (S n) g w c = c'.
Proof.
  revert c; induction n as [|n IH]; intros c H.
  - simpl in *. by rewrite H.
  - change (run (S (S n)) g w c)
      with (match step g w c with
            | Some c1 => run (S n) g w c1
            | None => c
            end).
    simpl in H. destruct (step g w c) as [c1|] eqn:E.
    + by apply IH.
    + congruence.
Qed.

Lemma run_stuck n c : step g w c = None → run n g w c = c.
Proof. intros H; destruct n; simpl; [done | by rewrite H]. Qed.

Lemma run_add n m c : run (n + m) g w c = run m g w (run n g w c).
Proof.
  revert c; induction n as [|n IH]; intros c; simpl; [done|].
  destruct (step g w c) as [c1|] eqn:E; [apply IH|].
  by rewrite run_stuck.
Qed.

(** Fuel that covers the statements left is enough to finish. *)
Lemma run_halts n c :
  remaining (pc c) ≤ n → step g w (run n g w c) = None.
Proof.
  revert c; induction n as [|n IH]; intros c Hn; simpl.
  - apply step_None. lia.
  - destruct (step g w c) as [c1|] eqn:E; [|done].
    apply IH. apply step_decreases in E. lia.
Qed.

Lemma entrypoint_halts : step g w (entrypoint g w) = None.
Proof. apply run_halts. simpl. lia. Qed.

Lemma entrypoint_outcome :
  outcome (entrypoint g w) = Normal ∨
  ∃ e, outcome (entrypoint g w) = Exception e.
Proof.
  pose proof entrypoint_halts as H. apply step_None in H.
  unfold outcome. destruct (pc (entrypoint g w)); simpl in H; try lia; eauto.
Qed.

Lemma run_trace_prefix n c : trace c `prefix_of` trace (run n g w c).
Proof.
  revert c; induction n as [|n IH]; intros c; simpl; [done|].
  destruct (step g w c) as [c1|] eqn:E; [|done].
  destruct (step_extends c c1 E) as [evs Hevs].
  transitivity (trace c1); [|apply IH].
  rewrite Hevs. by apply prefix_app_r.
Qed.

Lemma run_reachable n : reachable g w (run n g w initial).
Proof.
  induction n as [|n IH]; [apply rtc_refl|].
  destruct (step g w (run n g w initial)) as [c'|] eqn:E.
  - rewrite (run_S_last _ _ _ E). eapply rtc_r; [apply IH | exact E].
  - replace (S n) with (n + 1) by lia.
    rewrite run_add. simpl. by rewrite E.
Qed.

Lemma entrypoint_reachable : reachable g w (entrypoint g w).
Proof. apply run_reachable. Qed.

(** Conversely a reachable configuration is what the run has after some
    number of statements, and that number is at most fourteen. *)
Lemma reachable_run c :
  reachable g w c → ∃ n, n ≤ 14 ∧ c = run n g w initial.
Proof.
  intros H. assert (∃ n, c = run n g w initial) as [n ->].
  { revert c H. apply (rtc_ind_r (λ c, ∃ n, c = run n g w initial)).
    - by exists 0.
    - intros c c' _ Hstep [n ->].
      exists (S n). symmetry. by apply run_S_last. }
  destruct (decide (n ≤ 14)) as [|Hgt]; [eauto|].
  exists 14; split; [done|].
  replace n with (14 + (n - 14)) by lia.
  rewrite run_add. apply run_stuck, entrypoint_halts.
Qed.

(** Whatever a run has done at some point is the beginning of what it
    will have done in the end. *)
Lemma reachable_prefix c :
  reachable g w c → trace c `prefix_of` trace (entrypoint g w).
Proof.
  intros (n & Hn & ->)%reachable_run. unfold entrypoint.
  replace 14 with (n + (14 - n)) at 1 by lia.
  rewrite run_add. apply run_trace_prefix.
Qed.

End machine.

(** * One handler invocation, by the value of [MCP_SERVER_URL] *)

(** Split a run on what the world answers: the environment variable (unset,
    empty, non-empty), the two constructors that can raise and the two
    awaited calls. *)
Ltac run_handler w :=
  unfold entrypoint, run, step, os_getenv; simpl;
  repeat match goal with
    | H : os_environ w !! _ = _ |- _ => rewrite H; simpl
    | H : new_MCPServerHTTP w _ _ = _ |- _ => rewrite H; simpl
    | H : ctx_connect w _ = _ |- _ => rewrite H; simpl
    | H : new_AgentSession w _ _ _ = _ |- _ => rewrite H; simpl
    end;
  repeat match goal with
    | |- context [os_environ w !! ?k] =>
        destruct (os_environ w !! k) as [[|? ?]|]; simpl
    | |- context [new_MCPServerHTTP w ?u ?t] =>
        let E := fresh "Hserver" in
        destruct (new_MCPServerHTTP w u t) eqn:E; simpl
    | |- context [ctx_connect w ?m] =>
        destruct (ctx_connect w m); simpl
    | |- context [new_AgentSession w ?a ?b ?c] =>
        let E := fresh "Hsession" in
        destruct (new_AgentSession w a b c) eqn:E; simpl
    | |- context [session_start w ?s ?a ?r] =>
        let E := fresh "Hstarted" in
        destruct (session_start w s a r) eqn:E; simpl
    end.

(** Take apart a hypothesis that an event occurs in an explicit trace:
    one goal is left for each position that holds an event of that kind. *)
Ltac in_trace H :=
  repeat (apply elem_of_cons in H as [H|H]; [try discriminate H|]);
  try (by apply elem_of_nil in H).

(** The specification's end-to-end scenario: the prompt is
    ["You are helpful."] and the variable is not set. *)
Example scenario_without_url :
  entrypoint helpful job_without_url =
  {| pc := Returned;
     trace :=
       [ GetEnv "MCP_SERVER_URL" PyNone;
         Print "⚠ No MCP_SERVER_URL found in environment";
         CallConnect AUDIO_ONLY;
         RetConnect;
         NewAgent {| instructions := "You are helpful."; mcp_servers := [] |};
         NewAgentSession
           {| stt := "assemblyai/universal-streaming:en";
              llm := "openai/gpt-4.1-mini";
              tts := "cartesia/sonic-2:9626c31c-bec5-4cca-baa8-f8ba9e84c8bc" |};
         CallStart
           {| stt := "assemblyai/universal-streaming:en";
              llm := "openai/gpt-4.1-mini";
              tts := "cartesia/sonic-2:9626c31c-bec5-4cca-baa8-f8ba9e84c8bc" |}
           {| instructions := "You are helpful."; mcp_servers := [] |}
           {| name := "lobby" |};
         RetStart;
         Print "✓ Agent started successfully in room: lobby";
         Print "✓ MCP servers: 0 configured" ] |}.
Proof. vm_compute. reflexivity. Qed.

Example scenario_with_url :
  trace (entrypoint helpful job_with_url) =
  [ GetEnv "MCP_SERVER_URL" (PyStr "https://example.com/mcp");
    Print "✓ MCP Server configured: https://example.com/mcp";
    NewMCPServerHTTP {| url := "https://example.com/mcp"; timeout := 10 |};
    CallConnect AUDIO_ONLY;
    RetConnect;
    NewAgent
      {| instructions := "You are helpful.";
         mcp_servers :=
           [{| url := "https://example.com/mcp"; timeout := 10 |}] |};
    NewAgentSession
      {| stt := "assemblyai/universal-streaming:en";
         llm := "openai/gpt-4.1-mini";
         tts := "cartesia/sonic-2:9626c31c-bec5-4cca-baa8-f8ba9e84c8bc" |};
    CallStart
      {| stt := "assemblyai/universal-streaming:en";
         llm := "openai/gpt-4.1-mini";
         tts := "cartesia/sonic-2:9626c31c-bec5-4cca-baa8-f8ba9e84c8bc" |}
      {| instructions := "You are helpful.";
         mcp_servers :=
           [{| url := "https://example.com/mcp"; timeout := 10 |}] |}
      {| name := "lobby" |};
    RetStart;
    Print "✓ Agent started successfully in room: lobby";
    Print "✓ MCP servers: 1 configured" ].
Proof. vm_compute. reflexivity. Qed.

(** A URL the descriptor's constructor cannot parse: the line is printed,
    the constructor raises, and the handler never connects. *)
Example bad_url_raises :
  entrypoint helpful job_bad_url =
  {| pc := Raised (ValueError "Invalid IPv6 URL");
     trace :=
       [ GetEnv "MCP_SERVER_URL" (PyStr "http://[x]/mcp");
         Print "✓ MCP Server configured: http://[x]/mcp" ] |}.
Proof. vm_compute. reflexivity. Qed.

(** No credentials: the agent is built, the session constructor raises,
    and the session is never started. *)
Example missing_credentials_raise :
  entrypoint helpful job_no_credentials =
  {| pc := Raised (ValueError "api_key is required");
     trace :=
       [ GetEnv "MCP_SERVER_URL" PyNone;
         Print "⚠ No MCP_SERVER_URL found in environment";
         CallConnect AUDIO_ONLY;
         RetConnect;
         NewAgent
           {| instructions := "You are helpful."; mcp_servers := [] |} ] |}.
Proof. vm_compute. reflexivity. Qed.

(** C3: whenever [MCP_SERVER_URL] is set to a non-empty string [u], the
    handler logs the confirmation line first, and every agent it constructs
    receives the one-element list holding the descriptor with [url = u] and
    [timeout = 10].  When the descriptor's constructor accepts [u], that
    one descriptor is built and the agent is constructed as soon as the
    connect call returns; when it raises, the handler ends with its
    exception, having built no descriptor and no agent and never having
    called connect. *)
Theorem url_set_one_server g w u :
  os_environ w !! "MCP_SERVER_URL" = Some u →
  u ≠ "" →
  let c := entrypoint g w in
  let server := {| url := u; timeout := 10 |} in
  head (printed (trace c)) = Some ("✓ MCP Server configured: " +:+ u) ∧
  (∀ a, NewAgent a ∈ trace c →
        mcp_servers a = [server] ∧ length (mcp_servers a) = 1) ∧
  (new_MCPServerHTTP w u 10 = None →
   servers_built (trace c) = [server] ∧
   (ctx_connect w AUDIO_ONLY = None →
    agents_built (trace c) =
      [{| instructions := SYSTEM_PROMPT g; mcp_servers := [server] |}])) ∧
  (∀ e, new_MCPServerHTTP w u 10 = Some e →
        outcome c = Exception e ∧
        servers_built (trace c) = [] ∧
        connect_calls (trace c) = [] ∧
        agents_built (trace c) = []).
Proof.
  intros Henv Hu c server; subst c server.
  destruct u as [|ch u]; [done|].
  destruct (new_MCPServerHTTP w (String ch u) 10) as [e0|] eqn:Hnew.
  all: run_handler w.
  all: split; [done|]; split; [|split].
  all: try (intros a Ha; in_trace Ha; by simplify_eq).
  all: try (intros [=]).
  all: try (intros e' [= <-]; by split_and!).
  all: try (intros e' [=]).
  all: split; [done|]; intros Hconnect; by simplify_eq.
Qed.

Lemma url_set_one_server_witness :
  os_environ job_with_url !! "MCP_SERVER_URL"
    = Some "https://example.com/mcp" ∧
  servers_built (trace (entrypoint helpful job_with_url))
    = [{| url := "https://example.com/mcp"; timeout := 10 |}] ∧
  agents_built (trace (entrypoint helpful job_with_url))
    = [{| instructions := "You are helpful.";
          mcp_servers :=
            [{| url := "https://example.com/mcp"; timeout := 10 |}] |}] ∧
  outcome (entrypoint helpful job_bad_url)
    = Exception (ValueError "Invalid IPv6 URL").
Proof.
  assert (os_environ job_with_url !! "MCP_SERVER_URL"
            = Some "https://example.com/mcp") as Henv by reflexivity.
  assert ("https://example.com/mcp" ≠ "") as Hne by discriminate.
  destruct (url_set_one_server helpful job_with_url _ Henv Hne)
    as (_ & _ & Hgood & _).
  destruct (Hgood eq_refl) as [Hservers Hagents].
  assert (os_environ job_bad_url !! "MCP_SERVER_URL"
            = Some "http://[x]/mcp") as Henv' by reflexivity.
  assert ("http://[x]/mcp" ≠ "") as Hne' by discriminate.
  destruct (url_set_one_server helpful job_bad_url _ Henv' Hne')
    as (_ & _ & _ & Hbad).
  destruct (Hbad _ eq_refl) as [Hout _].
  split_and!;
    [exact Henv | exact Hservers | exact (Hagents eq_refl) | exact Hout].
Defined.

(** C4: whenever [MCP_SERVER_URL] is unset or set to the empty string, the
    handler logs the warning line, builds no tool-server descriptor, and
    every agent it constructs receives the empty list (length 0); the agent
    is constructed as soon as the connect call returns. *)
Theorem url_missing_no_server g w :
  os_environ w !! "MCP_SERVER_URL" = None ∨
  os_environ w !! "MCP_SERVER_URL" = Some "" →
  let c := entrypoint g w in
  head (printed (trace c)) = Some "⚠ No MCP_SERVER_URL found in environment" ∧
  servers_built (trace c) = [] ∧
  (∀ a, NewAgent a ∈ trace c →
        mcp_servers a = [] ∧ length (mcp_servers a) = 0) ∧
  (ctx_connect w AUDIO_ONLY = None →
   agents_built (trace c) =
     [{| instructions := SYSTEM_PROMPT g; mcp_servers := [] |}]).
Proof.
  intros [Henv|Henv] c; subst c.
  all: run_handler w.
  all: split_and!; try done.
  all: intros a Ha; in_trace Ha; by simplify_eq.
Qed.

Lemma url_missing_no_server_witness :
  os_environ job_without_url !! "MCP_SERVER_URL" = None ∧
  servers_built (trace (entrypoint helpful job_without_url)) = [] ∧
  agents_built (trace (entrypoint helpful job_without_url))
    = [{| instructions := "You are helpful."; mcp_servers := [] |}].
Proof.
  assert (os_environ job_without_url !! "MCP_SERVER_URL" = None)
    as Henv by reflexivity.
  destruct (url_missing_no_server helpful job_without_url (or_introl Henv))
    as (_ & Hservers & _ & Hagents).
  split_and!; [exact Henv | exact Hservers | exact (Hagents eq_refl)].
Defined.



(** * The tool-server list along a run *)

Lemma servers_inv_initial : servers_inv initial.
Proof. split; [done|]. intros a Ha. by apply elem_of_nil in Ha. Qed.

Lemma servers_inv_step g w c c' :
  steps_to g w c c' → servers_inv c → servers_inv c'.
Proof.
  destruct c as [p t]; intros Hstep [Hpc Htrace]; simpl in *.
  destruct p; step_inv Hstep; subst.
  all: split; simpl; try done; try lia.
  all: try (intros a' [Ha|Ha]%elem_of_app; [by apply Htrace|]).
  all: try (in_trace Ha; simplify_eq; simpl; lia).
  all: try (by rewrite ?app_nil_r).
  all: try (by destruct Hpc).
Qed.

Lemma servers_inv_reachable g w c : reachable g w c → servers_inv c.
Proof.
  revert c. apply (rtc_ind_r servers_inv).
  - apply servers_inv_initial.
  - intros c c' _ Hstep IH. by eapply servers_inv_step.
Qed.

(** C6: at every point of every execution of the handler the tool-server
    list has at most one element, and so the list handed to the agent
    constructor has length 0 or 1. *)
Theorem at_most_one_server g w c :
  reachable g w c →
  (∀ l, mcp_servers_at (pc c) = Some l → length l ≤ 1) ∧
  (∀ a, NewAgent a ∈ trace c →
        length (mcp_servers a) = 0 ∨ length (mcp_servers a) = 1).
Proof.
  intros [Hpc Htrace]%servers_inv_reachable; split.
  - intros l Hl. destruct (pc c); simplify_eq/=; try lia.
    all: by destruct Hpc.
  - intros a Ha. specialize (Htrace a Ha). lia.
Qed.

Lemma at_most_one_server_witness :
  let c := run 8 helpful job_with_url initial in
  reachable helpful job_with_url c ∧
  mcp_servers_at (pc c)
    = Some [{| url := "https://example.com/mcp"; timeout := 10 |}] ∧
  (∀ l, mcp_servers_at (pc c) = Some l → length l ≤ 1).
Proof.
  pose proof (run_reachable helpful job_with_url 8) as Hreach.
  destruct (at_most_one_server helpful job_with_url _ Hreach) as [Hpc _].
  split_and!; [exact Hreach | reflexivity | exact Hpc].
Defined.


(** * The order of the steps *)

(** The lines printed before the connect call are not the lines printed
    after the session has started: the texts differ whatever the URL and
    the room name are. *)
Lemma warning_not_confirmation w : ¬ is_confirmation w line_no_url.
Proof. intros [H|[n H]]; discriminate H. Qed.

Lemma configured_not_confirmation w u :
  ¬ is_confirmation w (line_configured u).
Proof. intros [H|[n H]]; discriminate H. Qed.

(** A run that has got past position [i] of the final trace agrees with it
    below [i]. *)
Lemma prefix_lookup_below {A} (l1 l2 : list A) i j x :
  l1 `prefix_of` l2 → l1 !! i = Some x → j < i → l1 !! j = l2 !! j.
Proof.
  intros Hpre Hi Hj. apply prefix_lookup_lt; [|done].
  apply lookup_lt_Some in Hi. lia.
Qed.

(** C7: every execution of the handler goes through the same steps in the
    same order: the environment check with its log line and, when the URL
    is set, the descriptor; then the connect call and its return; then the
    agent; then the session; then the start call and its return; then the
    two confirmation lines.  Whatever a run has done at any point is a
    beginning of that sequence; a run in which no framework call raises
    does all of it and returns; and a confirmation line is never in the
    output unless the return of the start call comes before it. *)
Theorem fixed_order g w :
  ∃ v branch servers,
    let agent :=
      {| instructions := SYSTEM_PROMPT g; mcp_servers := servers |} in
    let session :=
      {| stt := "assemblyai/universal-streaming:en";
         llm := "openai/gpt-4.1-mini";
         tts := "cartesia/sonic-2:9626c31c-bec5-4cca-baa8-f8ba9e84c8bc" |} in
    let script :=
      GetEnv "MCP_SERVER_URL" v :: branch ++
      [ CallConnect AUDIO_ONLY; RetConnect;
        NewAgent agent;
        NewAgentSession session;
        CallStart session agent (ctx_room w); RetStart;
        Print (line_started (name (ctx_room w)));
        Print (line_count (length servers)) ] in
    (branch = [Print line_no_url] ∧ servers = [] ∨
     ∃ u, branch = [ Print (line_configured u);
                     NewMCPServerHTTP {| url := u; timeout := 10 |} ] ∧
          servers = [{| url := u; timeout := 10 |}]) ∧
    (∀ c, reachable g w c → trace c `prefix_of` script) ∧
    ((∀ u, os_environ w !! "MCP_SERVER_URL" = Some u → u ≠ "" →
           new_MCPServerHTTP w u 10 = None) →
     ctx_connect w AUDIO_ONLY = None →
     new_AgentSession w
       "assemblyai/universal-streaming:en"
       "openai/gpt-4.1-mini"
       "cartesia/sonic-2:9626c31c-bec5-4cca-baa8-f8ba9e84c8bc" = None →
     session_start w session agent (ctx_room w) = None →
     entrypoint g w = {| pc := Returned; trace := script |}) ∧
    (∀ c i l, reachable g w c →
       trace c !! i = Some (Print l) → is_confirmation w l →
       ∃ j, j < i ∧ trace c !! j = Some RetStart).
Proof.
  exists (os_getenv w "MCP_SERVER_URL").
  destruct (os_environ w !! "MCP_SERVER_URL") as [[|ch u]|] eqn:Henv.
  1, 3: exists [Print line_no_url], [].
  3: exists [ Print (line_configured (String ch u));
              NewMCPServerHTTP {| url := String ch u; timeout := 10 |} ],
            [{| url := String ch u; timeout := 10 |}].
  all: cbv zeta.
  all: match goal with
       | |- _ ∧ ?P ∧ _ ∧ _ => assert P as Hprefix
       end.
  1, 3, 5: intros c Hc; etrans; [by apply reachable_prefix|].
  1, 2, 3: run_handler w; by eexists.
  all: split_and!; [ eauto | exact Hprefix | | ].
  1, 3, 5: intros Hurl Hconnect Hsession Hstart.
  3: pose proof (Hurl _ eq_refl ltac:(done)) as Hnew.
  1, 2, 3: revert Hstart; run_handler w; done.
  all: intros c i l Hc Hi Hl; pose proof (Hprefix c Hc) as Hpre.
  all: pose proof (prefix_lookup_Some _ _ _ _ Hi Hpre) as Hscript.
  all: simpl in Hscript.
  all: repeat (destruct i as [|i]; simpl in Hscript; simplify_eq).
  all: try (by apply warning_not_confirmation in Hl).
  all: try (by apply configured_not_confirmation in Hl).
  all: first
    [ exists 7; split; [lia|];
      rewrite (prefix_lookup_below _ _ _ 7 _ Hpre Hi) by lia; reflexivity
    | exists 8; split; [lia|];
      rewrite (prefix_lookup_below _ _ _ 8 _ Hpre Hi) by lia; reflexivity ].
Qed.

Lemma fixed_order_witness :
  ∃ j, j < 9 ∧ trace (entrypoint helpful job_with_url) !! j = Some RetStart.
Proof.
  destruct (fixed_order helpful job_with_url)
    as (v & branch & servers & _ & _ & _ & Hlate).
  apply (Hlate (entrypoint helpful job_with_url) 9 (line_started "lobby")).
  - apply entrypoint_reachable.
  - reflexivity.
  - by left.
Defined.

(** * Failures *)

Example connect_raises :
  entrypoint helpful job_connect_fails =
  {| pc := Raised (FrameworkError "connection refused");
     trace :=
       [ GetEnv "MCP_SERVER_URL" (PyStr "https://example.com/mcp");
         Print "✓ MCP Server configured: https://example.com/mcp";
         NewMCPServerHTTP
           {| url := "https://example.com/mcp"; timeout := 10 |};
         CallConnect AUDIO_ONLY ] |}.
Proof. vm_compute. reflexivity. Qed.

Example start_raises :
  entrypoint helpful job_start_fails =
  {| pc := Raised (FrameworkError "no such model");
     trace :=
       [ GetEnv "MCP_SERVER_URL" PyNone;
         Print "⚠ No MCP_SERVER_URL found in environment";
         CallConnect AUDIO_ONLY;
         RetConnect;
         NewAgent {| instructions := "You are helpful."; mcp_servers := [] |};
         NewAgentSession
           {| stt := "assemblyai/universal-streaming:en";
              llm := "openai/gpt-4.1-mini";
              tts := "cartesia/sonic-2:9626c31c-bec5-4cca-baa8-f8ba9e84c8bc" |};
         CallStart
           {| stt := "assemblyai/universal-streaming:en";
              llm := "openai/gpt-4.1-mini";
              tts := "cartesia/sonic-2:9626c31c-bec5-4cca-baa8-f8ba9e84c8bc" |}
           {| instructions := "You are helpful."; mcp_servers := [] |}
           {| name := "lobby" |} ] |}.
Proof. vm_compute. reflexivity. Qed.

Example missing_prompt :
  worker script_path Some ∅ [job_with_url] = inl FileNotFoundError.
Proof. vm_compute. reflexivity. Qed.

Example unreadable_prompt :
  worker script_path Some
    {[ ["srv"; "agent-python"; "agent-prompt.md"] :=
         {| readable := false; content := "You are helpful." |} ]}
    [job_with_url]
  = inl PermissionError.
Proof. vm_compute. reflexivity. Qed.

(** C8: no failing operation is recovered from.  A failed read of the
    prompt file ends the import with that error and no job is run.  If the
    connect call the handler makes raises, the handler ends with that
    exception: connect was called once, nothing happened after the call, no
    agent and no session was constructed, start was not called, and no
    confirmation line was printed.  If the start call the handler makes
    raises, the handler ends with that exception: connect and start were
    each called once, nothing happened after the start call, and no
    confirmation line was printed.  The two constructors that can raise are
    not recovered from either: the handler ends with their exception and
    does nothing more. *)
Theorem failures_propagate __file__ default_decode fs jobs g w e :
  let c := entrypoint g w in
  let quiet := ∀ l, Print l ∈ trace c → ¬ is_confirmation w l in
  (load_system_prompt __file__ default_decode fs = inl e →
   worker __file__ default_decode fs jobs = inl e ∧
   process_trace (worker __file__ default_decode fs jobs) = []) ∧
  (CallConnect AUDIO_ONLY ∈ trace c →
   ctx_connect w AUDIO_ONLY = Some e →
   outcome c = Exception e ∧
   connect_calls (trace c) = [AUDIO_ONLY] ∧
   last (trace c) = Some (CallConnect AUDIO_ONLY) ∧
   agents_built (trace c) = [] ∧
   sessions_built (trace c) = [] ∧
   start_calls (trace c) = [] ∧
   quiet) ∧
  (∀ s a r,
     CallStart s a r ∈ trace c →
     session_start w s a r = Some e →
     outcome c = Exception e ∧
     connect_calls (trace c) = [AUDIO_ONLY] ∧
     start_calls (trace c) = [(s, a, r)] ∧
     last (trace c) = Some (CallStart s a r) ∧
     quiet) ∧
  (∀ u,
     os_environ w !! "MCP_SERVER_URL" = Some u → u ≠ "" →
     new_MCPServerHTTP w u 10 = Some e →
     outcome c = Exception e ∧
     connect_calls (trace c) = [] ∧
     agents_built (trace c) = [] ∧
     sessions_built (trace c) = [] ∧
     start_calls (trace c) = [] ∧
     quiet) ∧
  (RetConnect ∈ trace c →
   new_AgentSession w
     "assemblyai/universal-streaming:en"
     "openai/gpt-4.1-mini"
     "cartesia/sonic-2:9626c31c-bec5-4cca-baa8-f8ba9e84c8bc" = Some e →
   outcome c = Exception e ∧
   sessions_built (trace c) = [] ∧
   start_calls (trace c) = [] ∧
   quiet).
Proof.
  cbv zeta. split; [|split; [|split; [|split]]].
  - intros Hload. unfold worker, import_module. by rewrite Hload.
  - intros Hcall Hconnect. revert Hcall. run_handler w; intros Hcall.
    all: try (in_trace Hcall; fail).
    all: split_and!; try done.
    all: intros l Hl; in_trace Hl; simplify_eq.
    all: first [ apply warning_not_confirmation
               | apply configured_not_confirmation ].
  - intros s' a' r' Hcall Hstart. revert Hcall. run_handler w; intros Hcall.
    all: in_trace Hcall; simplify_eq.
    all: split_and!; try done.
    all: intros l Hl; in_trace Hl; simplify_eq.
    all: first [ apply warning_not_confirmation
               | apply configured_not_confirmation ].
  - intros [|ch u] Henv Hu Hnew; [done|]. run_handler w.
    split_and!; try done.
    intros l Hl; in_trace Hl; simplify_eq.
    apply configured_not_confirmation.
  - intros Hret Hnew. revert Hret. run_handler w; intros Hret.
    all: try (in_trace Hret; fail).
    all: split_and!; try done.
    all: intros l Hl; in_trace Hl; simplify_eq.
    all: first [ apply warning_not_confirmation
               | apply configured_not_confirmation ].
Qed.

Lemma failures_propagate_witness :
  worker script_path Some ∅ [job_with_url] = inl FileNotFoundError ∧
  outcome (entrypoint helpful job_connect_fails)
    = Exception (FrameworkError "connection refused") ∧
  agents_built (trace (entrypoint helpful job_connect_fails)) = [] ∧
  outcome (entrypoint helpful job_start_fails)
    = Exception (FrameworkError "no such model") ∧
  outcome (entrypoint helpful job_bad_url)
    = Exception (ValueError "Invalid IPv6 URL") ∧
  outcome (entrypoint helpful job_no_credentials)
    = Exception (ValueError "api_key is required").
Proof.
  destruct (failures_propagate script_path Some ∅ [job_with_url]
              helpful job_with_url FileNotFoundError)
    as (Hread & _).
  destruct (failures_propagate script_path Some ∅ []
              helpful job_connect_fails (FrameworkError "connection refused"))
    as (_ & Hconnect & _).
  destruct (failures_propagate script_path Some ∅ []
              helpful job_start_fails (FrameworkError "no such model"))
    as (_ & _ & Hstart & _).
  destruct (failures_propagate script_path Some ∅ []
              helpful job_bad_url (ValueError "Invalid IPv6 URL"))
    as (_ & _ & _ & Hurl & _).
  destruct (failures_propagate script_path Some ∅ []
              helpful job_no_credentials (ValueError "api_key is required"))
    as (_ & _ & _ & _ & Hsession).
  assert (CallConnect AUDIO_ONLY
            ∈ trace (entrypoint helpful job_connect_fails)) as Hcalled.
  { do 3 apply list_elem_of_further. apply list_elem_of_here. }
  destruct (Hconnect Hcalled eq_refl) as (Hout & _ & _ & Hagents & _).
  assert (CallStart
            {| stt := "assemblyai/universal-streaming:en";
               llm := "openai/gpt-4.1-mini";
               tts := "cartesia/sonic-2:9626c31c-bec5-4cca-baa8-f8ba9e84c8bc" |}
            {| instructions := "You are helpful."; mcp_servers := [] |}
            {| name := "lobby" |}
            ∈ trace (entrypoint helpful job_start_fails)) as Hstarted.
  { do 6 apply list_elem_of_further. apply list_elem_of_here. }
  destruct (Hstart _ _ _ Hstarted eq_refl) as (Hout' & _).
  assert (os_environ job_bad_url !! "MCP_SERVER_URL" = Some "http://[x]/mcp")
    as Henv by reflexivity.
  assert ("http://[x]/mcp" ≠ "") as Hne by discriminate.
  destruct (Hurl _ Henv Hne eq_refl) as (Hout'' & _).
  assert (RetConnect ∈ trace (entrypoint helpful job_no_credentials))
    as Hret.
  { do 3 apply list_elem_of_further. apply list_elem_of_here. }
  destruct (Hsession Hret eq_refl) as (Hout''' & _).
  split_and!;
    [ exact (proj1 (Hread eq_refl)) | exact Hout | exact Hagents
    | exact Hout' | exact Hout'' | exact Hout''' ].
Defined.

(** * An empty URL and no URL *)

(** C10: take two runs of the handler, one with [MCP_SERVER_URL] unset and
    one with it set to the empty string, in the same room and with a
    framework that answers the same.  The two runs end at the same point
    and the outside world sees the same events.  Both print the warning
    line first and never the "configured" line, both build no tool-server
    descriptor, and in both the agent constructor is called, as soon as
    connect returns, with the empty list (and not at all if connect
    raises). *)
Theorem empty_url_same_as_unset g w1 w2 :
  os_environ w1 !! "MCP_SERVER_URL" = None →
  os_environ w2 !! "MCP_SERVER_URL" = Some "" →
  ctx_room w1 = ctx_room w2 →
  ctx_connect w1 AUDIO_ONLY = ctx_connect w2 AUDIO_ONLY →
  new_AgentSession w1
    "assemblyai/universal-streaming:en"
    "openai/gpt-4.1-mini"
    "cartesia/sonic-2:9626c31c-bec5-4cca-baa8-f8ba9e84c8bc"
  = new_AgentSession w2
      "assemblyai/universal-streaming:en"
      "openai/gpt-4.1-mini"
      "cartesia/sonic-2:9626c31c-bec5-4cca-baa8-f8ba9e84c8bc" →
  (∀ s a, session_start w1 s a (ctx_room w1)
          = session_start w2 s a (ctx_room w2)) →
  let c1 := entrypoint g w1 in
  let c2 := entrypoint g w2 in
  let agents :=
    match ctx_connect w1 AUDIO_ONLY with
    | None => [{| instructions := SYSTEM_PROMPT g; mcp_servers := [] |}]
    | Some _ => []
    end in
  pc c1 = pc c2 ∧
  effects (trace c1) = effects (trace c2) ∧
  head (printed (trace c1))
    = Some "⚠ No MCP_SERVER_URL found in environment" ∧
  head (printed (trace c2))
    = Some "⚠ No MCP_SERVER_URL found in environment" ∧
  Forall (λ l, ∀ u, l ≠ "✓ MCP Server configured: " +:+ u)
         (printed (trace c1) ++ printed (trace c2)) ∧
  servers_built (trace c1) = [] ∧
  servers_built (trace c2) = [] ∧
  agents_built (trace c1) = agents ∧
  agents_built (trace c2) = agents.
Proof.
  intros Hunset Hempty Hroom Hconnect Hsession Hstart c1 c2 agents.
  subst c1 c2 agents. unfold entrypoint, run, step, os_getenv.
  rewrite Hunset, Hempty. simpl. rewrite <- Hconnect, <- Hsession.
  destruct (ctx_connect w1 AUDIO_ONLY); simpl.
  2: destruct (new_AgentSession w1 _ _ _); simpl.
  3: rewrite <- Hstart; destruct (session_start w1 _ _ _); simpl.
  all: rewrite <- ?Hroom.
  all: split_and!; try done.
  all: repeat constructor; try done.
  all: intros u Hu; discriminate Hu.
Qed.

Lemma empty_url_same_as_unset_witness :
  effects (trace (entrypoint helpful job_without_url))
    = effects (trace (entrypoint helpful job_with_empty_url)) ∧
  agents_built (trace (entrypoint helpful job_with_empty_url))
    = [{| instructions := "You are helpful."; mcp_servers := [] |}].
Proof.
  destruct (empty_url_same_as_unset helpful job_without_url
              job_with_empty_url eq_refl eq_refl eq_refl eq_refl eq_refl
              (λ _ _, eq_refl))
    as (_ & Heffects & _ & _ & _ & _ & _ & _ & Hagents).
  split; [exact Heffects | exact Hagents].
Defined.

(** * The prompt file *)

Section prompt.

Variable __file__ : list string.
Variable default_decode : string → option string.

(** A successful import binds the decoded content of the whole file. *)
Lemma import_module_ok fs f text :
  fs !! prompt_path __file__ = Some f →
  readable f = true →
  default_decode (content f) = Some text →
  import_module __file__ default_decode fs = inr {| SYSTEM_PROMPT := text |}.
Proof.
  intros Hf Hr Hd.
  unfold import_module, load_system_prompt, read_text, prompt_path in *.
  by rewrite Hf, Hr, Hd.
Qed.

(** Every agent a run constructs carries the global prompt. *)
Lemma agent_instructions g w a :
  NewAgent a ∈ trace (entrypoint g w) → instructions a = SYSTEM_PROMPT g.
Proof. run_handler w; intros Ha; in_trace Ha; by simplify_eq. Qed.

(** Once connect has returned, the next statement builds the agent. *)
Lemma agent_after_connect g w :
  RetConnect ∈ trace (entrypoint g w) →
  ∃ a, NewAgent a ∈ trace (entrypoint g w).
Proof.
  run_handler w; intros Hret.
  all: try (in_trace Hret; fail).
  all: eexists; repeat first [ by apply list_elem_of_here
                             | apply list_elem_of_further ].
Qed.

(** C1 (amended): the prompt file is read in full as UTF-8 text exactly
    once, when the module is imported, and not at each handler invocation.
    In every job of the process, whatever the file holds (or whether it
    still exists) when that job runs, the instructions of every agent
    constructed are that first reading, and an agent is constructed as soon
    as the job's connect call has returned.  (The codec of the read is a
    parameter here: the statement holds for whichever codec [read_text]
    applies, UTF-8 included.) *)
Theorem prompt_read_once fs jobs f text :
  fs !! prompt_path __file__ = Some f →
  readable f = true →
  default_decode (content f) = Some text →
  ∃ cs,
    worker __file__ default_decode fs jobs = inr cs ∧
    length cs = length jobs ∧
    ∀ k w c, jobs !! k = Some w → cs !! k = Some c →
      c = entrypoint {| SYSTEM_PROMPT := text |} w ∧
      (∀ a, NewAgent a ∈ trace c → instructions a = text) ∧
      (RetConnect ∈ trace c → ∃ a, NewAgent a ∈ trace c).
Proof.
  intros Hf Hr Hd. unfold worker.
  rewrite (import_module_ok _ _ _ Hf Hr Hd).
  eexists; split_and!; [done | by rewrite length_fmap |].
  intros k w c Hw Hc. rewrite list_lookup_fmap, Hw in Hc.
  simplify_eq/=. split_and!; [done | |].
  - intros a Ha. by apply agent_instructions in Ha.
  - apply agent_after_connect.
Qed.

(** C2: if the prompt file does not exist, cannot be read or cannot be
    decoded, the read raises while the module is being imported: the
    process ends with that error before any job is handed to the handler, so
    connect is never called and no agent and no session is constructed. *)
Theorem missing_prompt_no_connect fs jobs :
  fs !! prompt_path __file__ = None ∨
  (∃ f, fs !! prompt_path __file__ = Some f ∧
        (readable f = false ∨ default_decode (content f) = None)) →
  ∃ e,
    load_system_prompt __file__ default_decode fs = inl e ∧
    worker __file__ default_decode fs jobs = inl e ∧
    let events := process_trace (worker __file__ default_decode fs jobs) in
    events = [] ∧
    connect_calls events = [] ∧
    agents_built events = [] ∧
    sessions_built events = [].
Proof.
  intros Hfile.
  assert (∃ e, load_system_prompt __file__ default_decode fs = inl e)
    as [e He].
  { unfold load_system_prompt, read_text, prompt_path in *.
    destruct Hfile as [-> | (f & -> & [-> | Hd])]; eauto.
    destruct (readable f); [rewrite Hd|]; eauto. }
  exists e. unfold worker, import_module. by rewrite He.
Qed.



End prompt.

(** C1 as stated does not hold: the instructions of a job's agent are not
    the file's content when that job runs.  The process below imports the
    module while the file says ["You are helpful."]; the file then changes,
    and the job that follows still builds its agent from the old text. *)
Lemma prompt_not_reread :
  ¬ (∀ __file__ default_decode fs jobs cs k w c a,
       worker __file__ default_decode fs jobs = inr cs →
       jobs !! k = Some w →
       cs !! k = Some c →
       NewAgent a ∈ trace c →
       load_system_prompt __file__ default_decode (files w)
         = inr (instructions a)).
Proof.
  intros Hclaim.
  specialize (Hclaim script_path Some (prompt_file "You are helpful.")
                [job_after_edit] _ 0 job_after_edit _
                {| instructions := "You are helpful."; mcp_servers := [] |}
                eq_refl eq_refl eq_refl).
  vm_compute in Hclaim.
  assert (inr "You are terse." = inr "You are helpful." :> Exn + string)
    as Hsame; [|discriminate Hsame].
  apply Hclaim. do 4 apply list_elem_of_further. apply list_elem_of_here.
Qed.

Lemma prompt_read_once_witness :
  ∃ cs c,
    worker script_path Some (prompt_file "You are helpful.") [job_after_edit]
      = inr cs ∧
    cs !! 0 = Some c ∧
    load_system_prompt script_path Some (files job_after_edit)
      = inr "You are terse." ∧
    agents_built (trace c)
      = [{| instructions := "You are helpful."; mcp_servers := [] |}].
Proof.
  destruct (prompt_read_once script_path Some
              (prompt_file "You are helpful.") [job_after_edit]
              {| readable := true; content := "You are helpful." |}
              "You are helpful." eq_refl eq_refl eq_refl)
    as (cs & Hcs & Hlen & Hjobs).
  destruct cs as [|c cs]; [discriminate Hlen|].
  exists (c :: cs), c.
  destruct (Hjobs 0 job_after_edit c eq_refl eq_refl) as (-> & _ & _).
  split_and!; [exact Hcs | reflexivity | reflexivity | reflexivity].
Defined.

Lemma missing_prompt_no_connect_witness :
  ∃ e,
    worker script_path Some ∅ [job_with_url; job_without_url] = inl e ∧
    connect_calls
      (process_trace
         (worker script_path Some ∅ [job_with_url; job_without_url])) = [].
Proof.
  assert ((∅ : gmap (list string) File) !! prompt_path script_path = None)
    as Hmissing by reflexivity.
  destruct (missing_prompt_no_connect script_path Some ∅
              [job_with_url; job_without_url] (or_introl Hmissing))
    as (e & _ & Hworker & _ & Hconnect & _).
  exists e; split; [exact Hworker | exact Hconnect].
Defined.


(** The room matters as well: same process, same environment up to a
    variable the handler does not read, every call returns, and the logs
    differ in the line of the room. *)
Example room_line_differs :
  os_environ job_without_url !! "MCP_SERVER_URL"
    = os_environ job_in_kitchen !! "MCP_SERVER_URL" ∧
  printed (trace (entrypoint helpful job_without_url))
    = [ "⚠ No MCP_SERVER_URL found in environment";
        "✓ Agent started successfully in room: lobby";
        "✓ MCP servers: 0 configured" ] ∧
  printed (trace (entrypoint helpful job_in_kitchen))
    = [ "⚠ No MCP_SERVER_URL found in environment";
        "✓ Agent started successfully in room: kitchen";
        "✓ MCP servers: 0 configured" ].
Proof. split_and!; vm_compute; reflexivity. Qed.


(** * Further properties of the handler *)

(** Selecting events of one kind commutes with taking a beginning of the
    trace. *)
Lemma omap_prefix {A B} (f : A → option B) (l1 l2 : list A) :
  l1 `prefix_of` l2 → omap f l1 `prefix_of` omap f l2.
Proof. intros [k ->]. rewrite omap_app. by apply prefix_app_r. Qed.

Lemma prefix_of_singleton {A} (l : list A) x :
  l `prefix_of` [x] → l = [] ∨ l = [x].
Proof.
  destruct l as [|y l]; [by left|]. intros Hpre. right.
  pose proof (prefix_cons_inv_1 _ _ _ _ Hpre) as ->.
  apply prefix_cons_inv_2, prefix_nil_inv in Hpre. by subst.
Qed.

(** ** What the log tells *)

Lemma string_length_append (a b : string) :
  String.length (a +:+ b) = String.length a + String.length b.
Proof. induction a as [|ch a IH]; simpl; [done | by rewrite IH]. Qed.

(** A common ending can be cancelled. *)
Lemma string_append_cancel_r (a b s : string) :
  a +:+ s = b +:+ s → a = b.
Proof.
  revert b; induction a as [|ch a IH]; intros [|ch' b] H; simpl in H.
  - done.
  - apply (f_equal String.length) in H.
    rewrite !string_length_append in H. simpl in H. exfalso. lia.
  - apply (f_equal String.length) in H.
    rewrite !string_length_append in H. simpl in H. exfalso. lia.
  - injection H as -> H. f_equal. by apply IH.
Qed.

(** [str] of two different numbers gives two different texts. *)
Lemma str_of_int_inj n m : str_of_int n = str_of_int m → n = m.
Proof.
  unfold str_of_int. intros H.
  apply (f_equal NilEmpty.uint_of_string) in H.
  rewrite !NilEmpty.usu in H. injection H as H.
  by apply DecimalNat.Unsigned.to_uint_inj.
Qed.

(** X4: The four lines the handler prints can always be told apart, whatever
    the URL, the room name and the count are, and each of the three lines
    that carry a value determines it: a reader of the log recovers which
    branch ran, the configured URL, the room and the number of servers. *)
Theorem log_lines_unambiguous u u' r r' n n' :
  (line_configured u = line_configured u' ↔ u = u') ∧
  (line_started r = line_started r' ↔ r = r') ∧
  (line_count n = line_count n' ↔ n = n') ∧
  line_configured u ≠ line_no_url ∧
  line_configured u ≠ line_started r ∧
  line_configured u ≠ line_count n ∧
  line_no_url ≠ line_started r ∧
  line_no_url ≠ line_count n ∧
  line_started r ≠ line_count n.
Proof.
  split; [|split; [|split]].
  - split; [|by intros ->]. intros H. by simplify_eq/=.
  - split; [|by intros ->]. intros H. by simplify_eq/=.
  - split; [|by intros ->]. intros H. unfold line_count in H.
    simplify_eq/=. by apply str_of_int_inj, (string_append_cancel_r _ _ _ H).
  - split_and!; intros H; discriminate H.
Qed.

(** X5: The first line of the log tells which branch of line 46 ran, and
    says so truthfully: it is the "configured" line for [u] exactly when the
    variable is set to the non-empty string [u], and it is the warning
    exactly when the variable is unset or empty. *)
Theorem first_line_tells_branch g w u :
  let first := head (printed (trace (entrypoint g w))) in
  (first = Some (line_configured u) ↔
     os_environ w !! "MCP_SERVER_URL" = Some u ∧ u ≠ "") ∧
  (first = Some line_no_url ↔
     os_environ w !! "MCP_SERVER_URL" = None ∨
     os_environ w !! "MCP_SERVER_URL" = Some "").
Proof.
  cbv zeta.
  destruct (os_environ w !! "MCP_SERVER_URL") as [[|ch v]|] eqn:Henv.
  all: run_handler w.
  all: split; split.
  all: try (intros [= H]; discriminate H).
  all: try (intros [[= <-] Hne]; done).
  all: try (intros [[=] _]).
  all: try (intros [[=]|[=]]).
  all: try (intros _; by eauto).
  all: try done.
  all: intros [= H]; unfold line_configured in H; by simplify_eq/=.
Qed.

(** X6: The log of a run is a beginning of three lines: the first is the
    warning or the "configured" line for the value of the variable, then
    the room line, then the count line; the first is always there, and a
    run that returns normally has printed all three.  The count in the last
    line is the number of descriptors the handler built, which is also the
    length of the list it gave the agent; no descriptor is built after the
    warning, and at most the one for the printed URL after the "configured"
    line. *)
Theorem log_shape g w :
  let c := entrypoint g w in
  let built := servers_built (trace c) in
  ∃ first,
    let whole := [ first;
                   line_started (name (ctx_room w));
                   line_count (length built) ] in
    (first = line_no_url ∧ built = [] ∨
     ∃ u, os_environ w !! "MCP_SERVER_URL" = Some u ∧
          first = line_configured u ∧
          (built = [{| url := u; timeout := 10 |}] ∨
           built = [] ∧ outcome c ≠ Normal)) ∧
    head (printed (trace c)) = Some first ∧
    printed (trace c) `prefix_of` whole ∧
    (outcome c = Normal → printed (trace c) = whole) ∧
    Forall (λ a, length (mcp_servers a) = length built)
           (agents_built (trace c)).
Proof.
  cbv zeta.
  destruct (os_environ w !! "MCP_SERVER_URL") as [[|ch v]|] eqn:Henv.
  1, 3: exists line_no_url.
  3: exists (line_configured (String ch v)).
  all: run_handler w; unfold outcome; simpl.
  all: split_and!; try done; eauto.
  all: try (by repeat constructor).
  all: try (by eexists).
  all: right; exists (String ch v); split_and!; try done; eauto.
Qed.

(** X7: Every descriptor that exists at any point of a run was built from
    the environment: its URL is the value [MCP_SERVER_URL] has, that value
    is not empty, its timeout is 10, and it is the only descriptor built. *)
Theorem descriptors_come_from_environment g w c s :
  reachable g w c →
  NewMCPServerHTTP s ∈ trace c →
  os_environ w !! "MCP_SERVER_URL" = Some (url s) ∧
  url s ≠ "" ∧
  timeout s = 10 ∧
  servers_built (trace c) = [s].
Proof.
  intros Hc Hs.
  pose proof (reachable_prefix g w c Hc) as Hpre.
  assert (s ∈ servers_built (trace c)) as Hin.
  { apply list_elem_of_omap. by exists (NewMCPServerHTTP s). }
  pose proof (omap_prefix
    (λ ev, match ev with NewMCPServerHTTP s => Some s | _ => None end)
    _ _ Hpre) as Hbuilt.
  fold (servers_built (trace c)) in Hbuilt.
  fold (servers_built (trace (entrypoint g w))) in Hbuilt.
  revert Hbuilt.
  destruct (os_environ w !! "MCP_SERVER_URL") as [[|ch v]|] eqn:Henv.
  all: run_handler w.
  all: intros Hbuilt.
  all: try (apply prefix_nil_inv in Hbuilt; rewrite Hbuilt in Hin;
            by apply elem_of_nil in Hin).
  all: apply prefix_of_singleton in Hbuilt as [Hbuilt|Hbuilt];
       rewrite Hbuilt in Hin;
       [ by apply elem_of_nil in Hin | ].
  all: apply list_elem_of_singleton in Hin; subst s; simpl.
  all: by rewrite Hbuilt.
Qed.

Lemma descriptors_come_from_environment_witness :
  os_environ job_connect_fails !! "MCP_SERVER_URL"
    = Some "https://example.com/mcp" ∧
  servers_built (trace (entrypoint helpful job_connect_fails))
    = [{| url := "https://example.com/mcp"; timeout := 10 |}].
Proof.
  assert (NewMCPServerHTTP {| url := "https://example.com/mcp"; timeout := 10 |}
            ∈ trace (entrypoint helpful job_connect_fails)) as Hin.
  { do 2 apply list_elem_of_further. apply list_elem_of_here. }
  destruct (descriptors_come_from_environment helpful job_connect_fails _ _
              (entrypoint_reachable helpful job_connect_fails) Hin)
    as (Henv & _ & _ & Hbuilt).
  split; [exact Henv | exact Hbuilt].
Defined.

(** Follow a run from a configuration, one statement at a time: one goal
    is left for each configuration the run can be in, with the answers of
    the world that led there among the hypotheses. *)
Ltac follow_run H :=
  let c1 := fresh "c" in
  let Hstep := fresh "Hstep" in
  apply rtc_inv in H as [H | (c1 & Hstep & H)];
  [ subst
  | unfold steps_to, step, os_getenv in Hstep; simpl in Hstep;
    repeat case_match; simplify_eq; simpl in *; follow_run H ].

(** X8: The local list [mcp_servers] and the descriptors built: up to the
    [append] of line 52 the list is empty, and from line 57 to the end of
    the handler it is exactly the list of descriptors constructed, in the
    order they were constructed, and every agent built holds that list. *)
Theorem servers_list_is_what_was_built g w c l :
  reachable g w c →
  mcp_servers_at (pc c) = Some l →
  (8 < remaining (pc c) → l = []) ∧
  (remaining (pc c) ≤ 8 →
   l = servers_built (trace c) ∧
   Forall (λ a, mcp_servers a = l) (agents_built (trace c))).
Proof.
  intros Hc Hl. unfold reachable in Hc. follow_run Hc.
  all: simplify_eq/=.
  all: split; intros Hrem; try (exfalso; lia); try done.
  all: split; [done|]; by repeat constructor.
Qed.

Lemma servers_list_is_what_was_built_witness :
  let c := run 10 helpful job_with_url initial in
  mcp_servers_at (pc c)
    = Some [{| url := "https://example.com/mcp"; timeout := 10 |}] ∧
  servers_built (trace c)
    = [{| url := "https://example.com/mcp"; timeout := 10 |}].
Proof.
  cbv zeta.
  assert (mcp_servers_at (pc (run 10 helpful job_with_url initial))
          = Some [{| url := "https://example.com/mcp"; timeout := 10 |}])
    as Hl by reflexivity.
  destruct (servers_list_is_what_was_built helpful job_with_url _ _
              (run_reachable helpful job_with_url 10) Hl) as [_ Hlate].
  assert (remaining (pc (run 10 helpful job_with_url initial)) ≤ 8)
    as Hrem by (vm_compute; lia).
  destruct (Hlate Hrem) as [Hbuilt _].
  split; [exact Hl | symmetry; exact Hbuilt].
Defined.

(** ** What is never done *)

(** X1: The handler never asks for the connection twice nor in any mode
    but audio-only, and it builds no agent, builds no session and starts
    nothing unless the connect call has returned: this holds at every point
    of every run. *)
Theorem connect_once_audio_only g w c :
  reachable g w c →
  (connect_calls (trace c) = [] ∨ connect_calls (trace c) = [AUDIO_ONLY]) ∧
  (∀ a, NewAgent a ∈ trace c → RetConnect ∈ trace c) ∧
  (∀ s, NewAgentSession s ∈ trace c → RetConnect ∈ trace c) ∧
  (∀ s a r, CallStart s a r ∈ trace c → RetConnect ∈ trace c).
Proof.
  intros Hc. unfold reachable in Hc. follow_run Hc.
  all: split_and!; eauto.
  all: simpl; intros; match goal with H : _ ∈ _ |- _ => in_trace H end.
  all: repeat first [ by apply list_elem_of_here
                    | apply list_elem_of_further ].
Qed.

Lemma connect_once_audio_only_witness :
  connect_calls (trace (entrypoint helpful job_bad_url)) = [] ∧
  connect_calls (trace (entrypoint helpful job_with_url)) = [AUDIO_ONLY].
Proof.
  destruct (connect_once_audio_only helpful job_bad_url _
              (entrypoint_reachable helpful job_bad_url)) as [Hbad _].
  destruct (connect_once_audio_only helpful job_with_url _
              (entrypoint_reachable helpful job_with_url)) as [Hgood _].
  split.
  - destruct Hbad as [H|H]; [exact H | discriminate H].
  - destruct Hgood as [H|H]; [discriminate H | exact H].
Defined.

(** X2: Whenever the session is started, at any point of any run, what
    [start] receives is what the handler has built: the one session, with
    the three fixed selectors, the one agent, carrying the global prompt
    and the descriptors built, and the room of the job context; and start
    has been called only that once. *)
Theorem start_receives_what_was_built g w c s a r :
  reachable g w c →
  CallStart s a r ∈ trace c →
  s = {| stt := "assemblyai/universal-streaming:en";
         llm := "openai/gpt-4.1-mini";
         tts := "cartesia/sonic-2:9626c31c-bec5-4cca-baa8-f8ba9e84c8bc" |} ∧
  r = ctx_room w ∧
  instructions a = SYSTEM_PROMPT g ∧
  mcp_servers a = servers_built (trace c) ∧
  agents_built (trace c) = [a] ∧
  sessions_built (trace c) = [s] ∧
  start_calls (trace c) = [(s, a, r)].
Proof.
  intros Hc Hcall. unfold reachable in Hc. follow_run Hc.
  all: in_trace Hcall; by simplify_eq.
Qed.

Lemma start_receives_what_was_built_witness :
  start_calls (trace (entrypoint helpful job_start_fails))
  = [({| stt := "assemblyai/universal-streaming:en";
         llm := "openai/gpt-4.1-mini";
         tts := "cartesia/sonic-2:9626c31c-bec5-4cca-baa8-f8ba9e84c8bc" |},
      {| instructions := "You are helpful."; mcp_servers := [] |},
      {| name := "lobby" |})].
Proof.
  assert (CallStart
            {| stt := "assemblyai/universal-streaming:en";
               llm := "openai/gpt-4.1-mini";
               tts := "cartesia/sonic-2:9626c31c-bec5-4cca-baa8-f8ba9e84c8bc" |}
            {| instructions := "You are helpful."; mcp_servers := [] |}
            {| name := "lobby" |}
            ∈ trace (entrypoint helpful job_start_fails)) as Hcall.
  { do 6 apply list_elem_of_further. apply list_elem_of_here. }
  destruct (start_receives_what_was_built helpful job_start_fails _ _ _ _
              (entrypoint_reachable helpful job_start_fails) Hcall)
    as (_ & _ & _ & _ & _ & _ & Hcalls).
  exact Hcalls.
Defined.
